(** * go-fast-bernoulli: a shallow embedding of [fast_bernoulli.go]

    The sampler of [fast_bernoulli.go] is embedded as pure functions over an
    explicit state record.  [float64] is the kernel's binary64 type
    ([PrimFloat.float]), so comparisons on NaN, signed zeros, infinities and
    rounding behave as they do in Go; [uint32] is a [Z] with its wrap-around
    written out; [*rand.Rand] is a scripted sequence of draws with a cursor. *)

From Stdlib Require Import ZArith Lia Bool List String.
From Stdlib Require Import Floats.
Import ListNotations.

Local Open Scope Z_scope.

(** ** Machine integers: [uint32] *)

Definition MaxUint32 : Z := 4294967295.

(** Arithmetic on [uint32] wraps around modulo [2^32]. *)
Definition wrap32 (z : Z) : Z := z mod 4294967296.

Definition isUint32 (z : Z) : Prop := 0 <= z <= MaxUint32.

(** ** Floating point: [float64] *)

(** The untyped constant [math.MaxUint32] in [skipCount <= math.MaxUint32]
    is converted to [float64]; it is exactly representable. *)
Definition MaxUint32F : float := 4294967295%float.

(** The mantissa of [float64(math.MaxUint32)], whose exponent is [-21]. *)
Definition maxMantissa : positive := 9007199252643840.

(** The magnitude [m * 2^e] of a finite [float64], its fraction discarded. *)
Definition magnitude (m : positive) (e : Z) : Z :=
  if 0 <=? e then Z.shiftl (Zpos m) e else Z.shiftr (Zpos m) (- e).

(** The integer obtained from a finite [float64] by discarding its fraction
    (truncation towards zero); [None] for NaN and the infinities. *)
Definition truncZ (x : float) : option Z :=
  match Prim2SF x with
  | S754_zero _ => Some 0
  | S754_finite s m e => Some (cond_Zopp s (magnitude m e))
  | S754_infinity _ | S754_nan => None
  end.

(** Whether the conversion [uint32(x)] can represent [x]. *)
Definition inUint32Range (x : float) : bool :=
  match truncZ x with
  | Some z => (0 <=? z) && (z <=? MaxUint32)
  | None => false
  end.

(** [math.Floor]: the greatest integer value not above [x]; zeros,
    infinities and NaN are returned as they are. *)
Definition Floor (x : float) : float :=
  match Prim2SF x with
  | S754_finite s m e =>
      if 0 <=? e then x
      else SF2Prim (binary_normalize prec emax
                      (Z.shiftr (cond_Zopp s (Zpos m)) (- e)) 0 false)
  | _ => x
  end.

(** ** The random source: [*rand.Rand] *)

(** A source is the sequence of values its [Float64] method will return and
    the number of values already drawn. *)
Record Rand : Type := mkRand {
  draws : nat -> float;
  cursor : nat
}.

(** [r.Float64()]: the next value, and the source advanced by one draw. *)
Definition Float64 (r : Rand) : float * Rand :=
  (draws r (cursor r), mkRand (draws r) (S (cursor r))).

(** A source that returns the values of [l] in order, then [d] for ever. *)
Definition scripted (l : list float) (d : float) : Rand :=
  mkRand (fun i => nth i l d) 0.

(** An instance of [math.Log] for running the model on concrete inputs: the
    special cases of [math.Log], and elsewhere the first terms of the series
    [ln x = 2 (s + s^3/3 + s^5/5 + s^7/7 + ...)] with [s = (x-1)/(x+1)]. *)
Definition LogSeries (x : float) : float :=
  if is_nan x || (x =? infinity)%float then x
  else if (x <? 0)%float then nan
  else if (x =? 0)%float then neg_infinity
  else
    let s := ((x - 1) / (x + 1))%float in
    let s2 := (s * s)%float in
    (2 * s * (1 + s2 * (0x1.5555555555555p-2
                        + s2 * (0x1.999999999999ap-3
                                + s2 * 0x1.2492492492492p-3))))%float.

(** An instance of the unspecified conversion result: zero, as the
    saturating conversions of several targets give for negative operands. *)
Definition unspecifiedZero (x : float) : Z := 0.

(** A probability so small that [1 - probability] rounds to [1]. *)
Definition tinyProbability : float := 0x1p-60.

(** ** The sampler *)

Record FastBernoulli : Type := mkFastBernoulli {
  probability : float;
  invLogNotProbability : float;
  r : Rand;
  skipCount : Z
}.

Inductive result (A : Type) : Type :=
| Ok (a : A)
| Err (msg : string).
Arguments Ok {A} a.
Arguments Err {A} msg.

Definition isOk {A : Type} (x : result A) : bool :=
  match x with Ok _ => true | Err _ => false end.

(** A call of one of the two trial methods. *)
Inductive call : Type :=
| CallTrial
| CallMultiTrial (n : Z).

(** The argument of [MultiTrial] is a [uint32]. *)
Definition validCall (c : call) : bool :=
  match c with
  | CallTrial => true
  | CallMultiTrial n => (0 <=? n) && (n <=? MaxUint32)
  end.

(** ** Concrete sources and samplers *)

(** The source that [New] would build itself, here a fixed script. *)
Definition defaultSource : Rand := scripted [0.75%float] 0.5%float.

(** A sampler of probability [1/2] with three trials left to skip. *)
Definition halfSampler : FastBernoulli :=
  mkFastBernoulli 0.5 (1 / LogSeries 0.5)%float
                  (scripted [0.25%float] 0.5%float) 3.

(** A sampler of probability [1/2] whose skip count is used up. *)
Definition exhaustedSampler : FastBernoulli :=
  mkFastBernoulli 0.5 (1 / LogSeries 0.5)%float
                  (scripted [0.0625%float; 0.25%float] 0.5%float) 0.

(** A sampler of probability [1/2] about to draw the value [0]. *)
Definition zeroDrawSampler : FastBernoulli :=
  mkFastBernoulli 0.5 (1 / LogSeries 0.5)%float
                  (scripted [0%float] 0.5%float) 0.

(** The sampler [New] returns for the probability [0]. *)
Definition neverSampler : FastBernoulli :=
  mkFastBernoulli 0 (1 / LogSeries (1 - 0))%float defaultSource MaxUint32.

(** The sampler [New] returns for the probability [1]. *)
Definition everSampler : FastBernoulli :=
  mkFastBernoulli 1 (1 / LogSeries (1 - 1))%float defaultSource 0.

Section Sampler.

(** [math.Log], of the Go standard library. *)
Variable Log : float -> float.

(** The value of the conversion [uint32(x)] when [x] is not representable
    (the Go specification leaves it to the implementation). *)
Variable unspecifiedUint32 : float -> Z.

(** The source [rand.New(rand.NewSource(time.Now().UnixNano()))] that [New]
    builds when it is given none. *)
Variable timeSeeded : Rand.

(** The conversion [uint32(x)] of a [float64]. *)
Definition uint32OfFloat64 (x : float) : Z :=
  if inUint32Range x
  then match truncZ x with Some z => z | None => 0 end
  else wrap32 (unspecifiedUint32 x).

(** The local [skipCount] of [resetSkipCount]'s default case, for the
    draw [x]. *)
Definition rawSkipCount (f : FastBernoulli) (x : float) : float :=
  Floor (Log x * invLogNotProbability f).

Definition resetSkipCount (f : FastBernoulli) : FastBernoulli :=
  if (probability f =? 0)%float then
    mkFastBernoulli (probability f) (invLogNotProbability f) (r f) MaxUint32
  else if (probability f =? 1)%float then
    mkFastBernoulli (probability f) (invLogNotProbability f) (r f) 0
  else
    let (x, r') := Float64 (r f) in
    let skipCount := rawSkipCount f x in
    if (skipCount <=? MaxUint32F)%float then
      mkFastBernoulli (probability f) (invLogNotProbability f) r'
                      (uint32OfFloat64 skipCount)
    else
      mkFastBernoulli (probability f) (invLogNotProbability f) r' MaxUint32.

(** The operand of the conversion [uint32(skipCount)] that a call of
    [resetSkipCount] executes, if it executes one. *)
Definition castOperand (f : FastBernoulli) : option float :=
  if (probability f =? 0)%float then None
  else if (probability f =? 1)%float then None
  else
    let (x, _) := Float64 (r f) in
    let skipCount := rawSkipCount f x in
    if (skipCount <=? MaxUint32F)%float then Some skipCount else None.

Definition New (probability : float) (r : option Rand)
  : result FastBernoulli :=
  if (probability <? 0)%float || (1 <? probability)%float then
    Err "invalid probability"
  else
    let r := match r with
             | None => timeSeeded
             | Some r => r
             end in
    let f := mkFastBernoulli probability (1 / Log (1.0 - probability))%float
                             r 0 in
    Ok (resetSkipCount f).

Definition Trial (f : FastBernoulli) : bool * FastBernoulli :=
  if 0 <? skipCount f then
    (false, mkFastBernoulli (probability f) (invLogNotProbability f) (r f)
                            (wrap32 (skipCount f - 1)))
  else
    let f := resetSkipCount f in
    (negb (probability f =? 0)%float, f).

Definition MultiTrial (n : Z) (f : FastBernoulli) : bool * FastBernoulli :=
  if n <? skipCount f then
    (false, mkFastBernoulli (probability f) (invLogNotProbability f) (r f)
                            (wrap32 (skipCount f - n)))
  else
    let f := resetSkipCount f in
    (negb (probability f =? 0)%float, f).

Definition Probability (f : FastBernoulli) : float := probability f.

Definition SkipCount (f : FastBernoulli) : Z := skipCount f.

(** *** Sequences of calls *)

Definition step (c : call) (f : FastBernoulli) : bool * FastBernoulli :=
  match c with
  | CallTrial => Trial f
  | CallMultiTrial n => MultiTrial n f
  end.

(** The sampler after the calls [cs], made in order. *)
Fixpoint run (cs : list call) (f : FastBernoulli) : FastBernoulli :=
  match cs with
  | [] => f
  | c :: cs' => run cs' (snd (step c f))
  end.

(** [Trial()] called [n] times: the disjunction of the results, and the
    sampler afterwards. *)
Fixpoint TrialN (n : nat) (f : FastBernoulli) : bool * FastBernoulli :=
  match n with
  | O => (false, f)
  | S k =>
      let (b, f') := Trial f in
      let (bs, f'') := TrialN k f' in
      (b || bs, f'')
  end.

(** *** The sampling loop of the tests *)

(** Go's [int], taken as 64 bits wide: arithmetic wraps around. *)
Definition wrapInt (z : Z) : Z :=
  (z + 9223372036854775808) mod 18446744073709551616 - 9223372036854775808.

(** The loop of the closure [run] of [TestFastBernoulli_Edge], entered with
    the counters [events] and [numSampled]: the body runs before the test
    [events < 1].  [fuel] bounds the number of iterations; [None] is a loop
    that has not ended within it. *)
Fixpoint sampleLoop (fuel : nat) (fb : FastBernoulli) (events numSampled : Z)
  : option (Z * FastBernoulli) :=
  match fuel with
  | O => None
  | S fuel' =>
      let (sampled, fb') := Trial fb in
      let numSampled' :=
        if sampled then wrap32 (numSampled + 1) else numSampled in
      let events' := wrapInt (events - 1) in
      if events' <? 1 then Some (numSampled', fb')
      else sampleLoop fuel' fb' events' numSampled'
  end.

(** The closure [run] of [TestFastBernoulli_Edge]: the number of sampled
    events among [events] trials, and the sampler afterwards. *)
Definition testRun (fuel : nat) (fb : FastBernoulli) (events : Z)
  : option (Z * FastBernoulli) :=
  sampleLoop fuel fb events 0.

(** The number of calls that return [true] among [n] calls of [Trial()]. *)
Fixpoint countAccepts (n : nat) (f : FastBernoulli) : Z :=
  match n with
  | O => 0
  | S k =>
      let (b, f') := Trial f in
      (if b then 1 else 0) + countAccepts k f'
  end.

(** ** Facts about [float64] comparisons *)

Lemma Prim2SF_zero : Prim2SF 0 = S754_zero false.
Proof. reflexivity. Qed.

Lemma Prim2SF_one : Prim2SF 1 = S754_finite false 4503599627370496 (-52).
Proof. reflexivity. Qed.

(** A value that compares equal to [0] is one of the two zeros. *)
Lemma eqb_zero_inv (p : float) :
  (p =? 0)%float = true -> exists s, Prim2SF p = S754_zero s.
Proof.
  rewrite eqb_spec, Prim2SF_zero. unfold SFeqb, SFcompare.
  destruct (Prim2SF p) as [s | s | | s m e]; try discriminate.
  - intros _. now exists s.
  - destruct s; discriminate.
  - destruct s; discriminate.
Qed.

(** A value that compares equal to [1] is [1]. *)
Lemma eqb_one_inv (p : float) : (p =? 1)%float = true -> p = 1%float.
Proof.
  rewrite eqb_spec, Prim2SF_one. intros H.
  apply Prim2SF_inj. rewrite Prim2SF_one.
  unfold SFeqb, SFcompare in H.
  destruct (Prim2SF p) as [s | s | | s m e]; try discriminate.
  - destruct s; discriminate.
  - destruct s; try discriminate.
    destruct (Z.compare_spec e (-52)) as [He | He | He]; try discriminate.
    destruct (Pos.compare_cont Eq m 4503599627370496) eqn:Hm;
      try discriminate.
    apply Pos.compare_eq in Hm. now subst.
Qed.

Lemma zero_accepted (p : float) :
  (p =? 0)%float = true ->
  (p <? 0)%float = false /\ (1 <? p)%float = false /\ (p =? 1)%float = false.
Proof.
  intros H. destruct (eqb_zero_inv p H) as [s Hs].
  rewrite !ltb_spec, eqb_spec, Prim2SF_zero, Prim2SF_one, Hs.
  unfold SFltb, SFeqb, SFcompare. now destruct s.
Qed.

Lemma one_accepted (p : float) :
  (p =? 1)%float = true ->
  (p <? 0)%float = false /\ (1 <? p)%float = false /\ (p =? 0)%float = false.
Proof.
  intros H. apply eqb_one_inv in H. subst p. repeat split.
Qed.

(** ** The fields a derivation and a trial leave alone *)

Lemma resetSkipCount_probability (f : FastBernoulli) :
  probability (resetSkipCount f) = probability f.
Proof.
  unfold resetSkipCount.
  destruct (probability f =? 0)%float; [reflexivity |].
  destruct (probability f =? 1)%float; [reflexivity |].
  cbn. now destruct (rawSkipCount _ _ <=? MaxUint32F)%float.
Qed.

Lemma resetSkipCount_invLog (f : FastBernoulli) :
  invLogNotProbability (resetSkipCount f) = invLogNotProbability f.
Proof.
  unfold resetSkipCount.
  destruct (probability f =? 0)%float; [reflexivity |].
  destruct (probability f =? 1)%float; [reflexivity |].
  cbn. now destruct (rawSkipCount _ _ <=? MaxUint32F)%float.
Qed.

Lemma Trial_probability (f : FastBernoulli) :
  probability (snd (Trial f)) = probability f.
Proof.
  unfold Trial. destruct (0 <? skipCount f); cbn;
    [reflexivity | apply resetSkipCount_probability].
Qed.

Lemma MultiTrial_probability (n : Z) (f : FastBernoulli) :
  probability (snd (MultiTrial n f)) = probability f.
Proof.
  unfold MultiTrial. destruct (n <? skipCount f); cbn;
    [reflexivity | apply resetSkipCount_probability].
Qed.

Lemma step_probability (c : call) (f : FastBernoulli) :
  probability (snd (step c f)) = probability f.
Proof.
  destruct c; [apply Trial_probability | apply MultiTrial_probability].
Qed.

Lemma run_probability (cs : list call) (f : FastBernoulli) :
  probability (run cs f) = probability f.
Proof.
  revert f. induction cs as [| c cs IH]; intros f; cbn; [reflexivity |].
  now rewrite IH, step_probability.
Qed.

Lemma wrap32_id (z : Z) : isUint32 z -> wrap32 z = z.
Proof.
  unfold isUint32, wrap32, MaxUint32. intros H.
  apply Z.mod_small. lia.
Qed.

Lemma wrap32_range (z : Z) : isUint32 (wrap32 z).
Proof.
  unfold isUint32, wrap32, MaxUint32.
  pose proof (Z.mod_pos_bound z 4294967296). lia.
Qed.

(** ** [Trial]: the fast path *)

(** C5. In a state with [skipCount > 0], [Trial] lowers [skipCount] by
    exactly one, returns [false] and leaves the random source as it was:
    no value is drawn. *)
Theorem Trial_fast_path (f : FastBernoulli) :
  0 < skipCount f -> skipCount f <= MaxUint32 ->
  fst (Trial f) = false /\
  skipCount (snd (Trial f)) = skipCount f - 1 /\
  r (snd (Trial f)) = r f /\
  probability (snd (Trial f)) = probability f /\
  invLogNotProbability (snd (Trial f)) = invLogNotProbability f.
Proof.
  intros Hpos Hmax. unfold Trial.
  destruct (Z.ltb_spec 0 (skipCount f)) as [_ | Hle]; [| lia].
  cbn. repeat split.
  apply wrap32_id. unfold isUint32. lia.
Qed.

(** At [skipCount == 0], [Trial] derives a fresh skip count and answers
    [probability != 0]. *)
Lemma Trial_exhausted (f : FastBernoulli) :
  skipCount f = 0 ->
  Trial f = (negb (probability f =? 0)%float, resetSkipCount f).
Proof.
  intros H0. unfold Trial. rewrite H0. cbn.
  now rewrite resetSkipCount_probability.
Qed.

(** ** [MultiTrial] with [n = 0] *)

(** With [n = 0] and a positive skip count, nothing changes. *)
Lemma MultiTrial_zero_skips (f : FastBernoulli) :
  0 < skipCount f -> skipCount f <= MaxUint32 ->
  MultiTrial 0 f = (false, f).
Proof.
  intros Hpos Hmax. unfold MultiTrial.
  destruct (Z.ltb_spec 0 (skipCount f)) as [_ | Hle]; [| lia].
  rewrite Z.sub_0_r, wrap32_id by (unfold isUint32; lia).
  now destruct f.
Qed.

(** With [n = 0] and [skipCount == 0], the comparison [n < skipCount]
    fails: a fresh skip count is derived, and the answer is
    [probability != 0]. *)
Lemma MultiTrial_zero_derives (f : FastBernoulli) :
  skipCount f = 0 ->
  MultiTrial 0 f = (negb (probability f =? 0)%float, resetSkipCount f).
Proof.
  intros H0. unfold MultiTrial. rewrite H0. cbn.
  now rewrite resetSkipCount_probability.
Qed.

(** C1, at the failing input.  A sampler built with probability [1] has
    [skipCount == 0], and [MultiTrial(0)] on it returns [true]. *)
Theorem MultiTrial_zero_accepts (src : option Rand) :
  exists f, New 1 src = Ok f /\ skipCount f = 0 /\
            fst (MultiTrial 0 f) = true.
Proof.
  eexists. split; [reflexivity |]. split; reflexivity.
Qed.

(** With a probability other than [0] and [1] and [skipCount == 0],
    [MultiTrial(0)] returns [true] and draws from the random source. *)
Lemma MultiTrial_zero_draws (f : FastBernoulli) :
  skipCount f = 0 ->
  (probability f =? 0)%float = false ->
  (probability f =? 1)%float = false ->
  fst (MultiTrial 0 f) = true /\
  cursor (r (snd (MultiTrial 0 f))) = S (cursor (r f)).
Proof.
  intros H0 Hp0 Hp1. rewrite (MultiTrial_zero_derives f H0), Hp0.
  split; [reflexivity |]. cbn. unfold resetSkipCount.
  rewrite Hp0, Hp1. cbn.
  now destruct (rawSkipCount _ _ <=? MaxUint32F)%float.
Qed.

(** ** Construction *)

(** [New] fails, with its one error, exactly when one of the two
    comparisons of its guard holds. *)
Lemma New_error_iff (p : float) (src : option Rand) :
  New p src = Err "invalid probability" <->
  (p <? 0)%float = true \/ (1 <? p)%float = true.
Proof.
  unfold New. split.
  - destruct (p <? 0)%float; [now left |].
    destruct (1 <? p)%float; [now right | discriminate].
  - intros [H | H]; rewrite H; [reflexivity |].
    now rewrite orb_true_r.
Qed.

Lemma New_ok_iff (p : float) (src : option Rand) :
  isOk (New p src) = true <->
  (p <? 0)%float = false /\ (1 <? p)%float = false.
Proof.
  unfold New.
  destruct (p <? 0)%float, (1 <? p)%float; cbn; intuition congruence.
Qed.

(** C2, at the failing input.  NaN is below nothing and above nothing, so
    neither comparison of the guard holds: [New] accepts NaN, and the
    sampler it returns holds NaN as its probability. *)
Theorem New_accepts_NaN (src : option Rand) :
  exists f, New nan src = Ok f /\ Probability f = nan.
Proof.
  eexists. split; [reflexivity |].
  unfold Probability. apply resetSkipCount_probability.
Qed.

(** The probabilities [-0.1] and [1.1] (the nearest [float64] values) are
    refused, [0.0] and [1.0] are accepted. *)
Lemma New_boundaries (src : option Rand) :
  New (-0x1.999999999999ap-4) src = Err "invalid probability" /\
  New 0x1.199999999999ap+0 src = Err "invalid probability" /\
  isOk (New 0 src) = true /\
  isOk (New 1 src) = true.
Proof. repeat split. Qed.

(** C8. A successful [New] has computed
    [invLogNotProbability = 1 / Log(1 - probability)] and is the result of
    one skip-count derivation on the sampler so initialised; the derivation
    draws one value from the random source, and none when the probability
    is exactly [0] or exactly [1]. *)
Theorem New_derives_once (p : float) (src : option Rand) (f : FastBernoulli) :
  New p src = Ok f ->
  let r0 := match src with None => timeSeeded | Some s => s end in
  probability f = p /\
  invLogNotProbability f = (1 / Log (1 - p))%float /\
  f = resetSkipCount (mkFastBernoulli p (1 / Log (1 - p))%float r0 0) /\
  draws (r f) = draws r0 /\
  cursor (r f) =
    if (p =? 0)%float || (p =? 1)%float then cursor r0
    else S (cursor r0).
Proof.
  intros H r0. unfold New in H. fold r0 in H.
  destruct ((p <? 0)%float || (1 <? p)%float); [discriminate |].
  injection H as <-.
  rewrite resetSkipCount_probability, resetSkipCount_invLog. cbn.
  repeat split.
  - unfold resetSkipCount. cbn.
    destruct (p =? 0)%float; [reflexivity |].
    destruct (p =? 1)%float; [reflexivity |].
    now destruct (rawSkipCount _ _ <=? MaxUint32F)%float.
  - unfold resetSkipCount. cbn.
    destruct (p =? 0)%float; [reflexivity |].
    destruct (p =? 1)%float; [reflexivity |].
    now destruct (rawSkipCount _ _ <=? MaxUint32F)%float.
Qed.

(** ** The range of [skipCount] *)

Lemma uint32OfFloat64_range (x : float) : isUint32 (uint32OfFloat64 x).
Proof.
  unfold uint32OfFloat64, inUint32Range.
  destruct (truncZ x) as [z |]; [| apply wrap32_range].
  destruct (Z.leb_spec 0 z), (Z.leb_spec z MaxUint32); cbn;
    try apply wrap32_range.
  now split.
Qed.

Lemma resetSkipCount_range (f : FastBernoulli) :
  isUint32 (skipCount (resetSkipCount f)).
Proof.
  unfold resetSkipCount.
  destruct (probability f =? 0)%float; [cbv; split; discriminate |].
  destruct (probability f =? 1)%float; [cbv; split; discriminate |].
  cbn. destruct (rawSkipCount _ _ <=? MaxUint32F)%float; cbn.
  - apply uint32OfFloat64_range.
  - cbv; split; discriminate.
Qed.

Lemma step_range (c : call) (f : FastBernoulli) :
  isUint32 (skipCount (snd (step c f))).
Proof.
  destruct c as [| n]; cbn; [unfold Trial | unfold MultiTrial].
  - destruct (0 <? skipCount f); cbn;
      [apply wrap32_range | apply resetSkipCount_range].
  - destruct (n <? skipCount f); cbn;
      [apply wrap32_range | apply resetSkipCount_range].
Qed.

Lemma run_range (cs : list call) (f : FastBernoulli) :
  isUint32 (skipCount f) -> isUint32 (skipCount (run cs f)).
Proof.
  revert f. induction cs as [| c cs IH]; intros f Hf; cbn; [exact Hf |].
  apply IH, step_range.
Qed.

(** ** Probability [0]: never accept *)

Lemma resetSkipCount_zero (f : FastBernoulli) :
  (probability f =? 0)%float = true ->
  resetSkipCount f =
  mkFastBernoulli (probability f) (invLogNotProbability f) (r f) MaxUint32.
Proof. intros H. unfold resetSkipCount. now rewrite H. Qed.

Lemma step_rejects_at_zero (c : call) (f : FastBernoulli) :
  (probability f =? 0)%float = true -> fst (step c f) = false.
Proof.
  intros H. destruct c as [| n]; cbn; [unfold Trial | unfold MultiTrial].
  - destruct (0 <? skipCount f); cbn; [reflexivity |].
    now rewrite resetSkipCount_probability, H.
  - destruct (n <? skipCount f); cbn; [reflexivity |].
    now rewrite resetSkipCount_probability, H.
Qed.

Lemma New_zero (p : float) (src : option Rand) :
  (p =? 0)%float = true ->
  New p src =
  Ok (mkFastBernoulli p (1 / Log (1 - p))%float
        match src with None => timeSeeded | Some s => s end MaxUint32).
Proof.
  intros H. destruct (zero_accepted p H) as (Hlt & Hgt & _).
  unfold New. rewrite Hlt, Hgt. cbn. now rewrite resetSkipCount_zero.
Qed.

(** C7. A sampler built with a probability equal to [0] reports the
    largest [uint32] as its skip count, and after any sequence of calls
    [Trial] (and [MultiTrial] as well) returns [false]. *)
Theorem zero_probability_never_accepts (p : float) (src : option Rand) :
  (p =? 0)%float = true ->
  exists f0,
    New p src = Ok f0 /\
    SkipCount f0 = MaxUint32 /\
    forall cs : list call,
      fst (Trial (run cs f0)) = false /\
      forall n, fst (MultiTrial n (run cs f0)) = false.
Proof.
  intros H. eexists. split; [apply (New_zero p src H) |].
  split; [reflexivity |]. intros cs.
  split; [| intros n].
  - apply (step_rejects_at_zero CallTrial). now rewrite run_probability.
  - apply (step_rejects_at_zero (CallMultiTrial n)).
    now rewrite run_probability.
Qed.

(** C3, as the code has it.  A sampler built with a probability equal to
    [0] has the largest [uint32] as its skip count after construction and
    after every derivation; in between, [Trial] lowers the skip count by
    one and [MultiTrial(n)] by [n], so that after any sequence of calls the
    skip count is some [uint32], not necessarily the largest. *)
Theorem zero_probability_skipCount (p : float) (src : option Rand) :
  (p =? 0)%float = true ->
  exists f0,
    New p src = Ok f0 /\
    skipCount f0 = MaxUint32 /\
    forall cs : list call,
      let f := run cs f0 in
      isUint32 (skipCount f) /\
      skipCount (resetSkipCount f) = MaxUint32 /\
      skipCount (snd (Trial f)) =
        (if 0 <? skipCount f then skipCount f - 1 else MaxUint32) /\
      forall n, 0 <= n ->
        skipCount (snd (MultiTrial n f)) =
          (if n <? skipCount f then skipCount f - n else MaxUint32).
Proof.
  intros H. eexists. split; [apply (New_zero p src H) |].
  split; [reflexivity |]. intros cs f.
  assert (Hp : (probability f =? 0)%float = true).
  { unfold f. now rewrite run_probability. }
  assert (Hr : isUint32 (skipCount f)).
  { apply run_range. cbv. split; discriminate. }
  split; [exact Hr |].
  split; [now rewrite resetSkipCount_zero |].
  split; [| intros n Hn].
  - unfold Trial. destruct (Z.ltb_spec 0 (skipCount f)); cbn.
    + apply wrap32_id. unfold isUint32 in *. lia.
    + now rewrite resetSkipCount_zero.
  - unfold MultiTrial. destruct (Z.ltb_spec n (skipCount f)); cbn.
    + apply wrap32_id. unfold isUint32 in *. lia.
    + now rewrite resetSkipCount_zero.
Qed.

(** ** Probability [1]: always accept *)

Lemma resetSkipCount_one (f : FastBernoulli) :
  (probability f =? 1)%float = true ->
  resetSkipCount f =
  mkFastBernoulli (probability f) (invLogNotProbability f) (r f) 0.
Proof.
  intros H. destruct (one_accepted _ H) as (_ & _ & H0).
  unfold resetSkipCount. now rewrite H0, H.
Qed.

Lemma step_stays_at_one (c : call) (f : FastBernoulli) :
  (probability f =? 1)%float = true ->
  validCall c = true ->
  skipCount f = 0 ->
  skipCount (snd (step c f)) = 0.
Proof.
  intros H Hc H0. destruct c as [| n]; cbn; [unfold Trial | unfold MultiTrial];
    rewrite H0.
  - cbn. now rewrite resetSkipCount_one.
  - cbn in Hc. apply andb_prop in Hc as [Hn _]. apply Z.leb_le in Hn.
    destruct (Z.ltb_spec n 0); [lia |]. cbn.
    now rewrite resetSkipCount_one.
Qed.

Lemma run_stays_at_one (cs : list call) (f : FastBernoulli) :
  (probability f =? 1)%float = true ->
  forallb validCall cs = true ->
  skipCount f = 0 ->
  skipCount (run cs f) = 0.
Proof.
  revert f. induction cs as [| c cs IH]; intros f H Hcs H0; cbn;
    [exact H0 |].
  cbn in Hcs. apply andb_prop in Hcs as [Hc Hcs].
  apply IH; [now rewrite step_probability | exact Hcs |].
  now apply step_stays_at_one.
Qed.

(** C6. A sampler built with a probability equal to [1] has skip count
    [0] after construction, and after any sequence of calls [Trial]
    returns [true] and leaves the skip count at [0] (the whole sampler is
    as it was). *)
Theorem one_probability_always_accepts (p : float) (src : option Rand) :
  (p =? 1)%float = true ->
  exists f0,
    New p src = Ok f0 /\
    SkipCount f0 = 0 /\
    forall cs : list call,
      forallb validCall cs = true ->
      let f := run cs f0 in
      SkipCount f = 0 /\ Trial f = (true, f).
Proof.
  intros H. destruct (one_accepted p H) as (Hlt & Hgt & H0).
  exists (mkFastBernoulli p (1 / Log (1 - p))%float
            match src with None => timeSeeded | Some s => s end 0).
  split.
  { unfold New. rewrite Hlt, Hgt. cbn. now rewrite resetSkipCount_one. }
  split; [reflexivity |]. intros cs Hcs f.
  assert (Hp : (probability f =? 1)%float = true).
  { unfold f. now rewrite run_probability. }
  assert (Hs : skipCount f = 0).
  { apply run_stays_at_one; [exact H | exact Hcs | reflexivity]. }
  split; [exact Hs |].
  rewrite (Trial_exhausted f Hs), (resetSkipCount_one f Hp).
  destruct (one_accepted _ Hp) as (_ & _ & Hz). rewrite Hz, <- Hs.
  now destruct f.
Qed.

(** ** [MultiTrial(n)] against [n] calls of [Trial] *)

(** While the skip count lasts, [n] calls of [Trial] all return [false]
    and lower it by [n]. *)
Lemma TrialN_skips (n : nat) (f : FastBernoulli) :
  Z.of_nat n <= skipCount f -> skipCount f <= MaxUint32 ->
  TrialN n f =
  (false, mkFastBernoulli (probability f) (invLogNotProbability f) (r f)
                          (skipCount f - Z.of_nat n)).
Proof.
  revert f. induction n as [| n IH]; intros f Hn Hmax.
  - cbn. rewrite Z.sub_0_r. now destruct f.
  - cbn [TrialN]. unfold Trial.
    destruct (Z.ltb_spec 0 (skipCount f)) as [Hpos | Hle]; [| lia].
    rewrite wrap32_id by (unfold isUint32; lia).
    rewrite IH by (cbn; lia). cbn. do 2 f_equal. lia.
Qed.

Lemma TrialN_rejects_at_zero (n : nat) (f : FastBernoulli) :
  (probability f =? 0)%float = true -> fst (TrialN n f) = false.
Proof.
  revert f. induction n as [| n IH]; intros f H; [reflexivity |].
  cbn [TrialN].
  pose proof (step_rejects_at_zero CallTrial f H) as Hb.
  pose proof (Trial_probability f) as Hp. cbn in Hb.
  destruct (Trial f) as [b f']. cbn in Hb, Hp. subst b.
  specialize (IH f'). rewrite Hp in IH. specialize (IH H).
  now destruct (TrialN n f') as [bs f''].
Qed.

(** Once the skip count is used up, one of the calls accepts. *)
Lemma TrialN_accepts (n : nat) (f : FastBernoulli) :
  (probability f =? 0)%float = false ->
  0 <= skipCount f <= MaxUint32 ->
  skipCount f < Z.of_nat n ->
  fst (TrialN n f) = true.
Proof.
  revert f. induction n as [| n IH]; intros f Hp Hr Hn; [cbn in Hn; lia |].
  cbn [TrialN]. unfold Trial.
  destruct (Z.ltb_spec 0 (skipCount f)) as [Hpos | Hle].
  - rewrite wrap32_id by (unfold isUint32; lia).
    match goal with
    | |- context [TrialN n ?g] =>
        specialize (IH g Hp); destruct (TrialN n g) as [bs f'']
    end.
    cbn in *. apply IH; lia.
  - cbn. rewrite resetSkipCount_probability, Hp.
    now destruct (TrialN n (resetSkipCount f)).
Qed.

Lemma MultiTrial_result (n : Z) (f : FastBernoulli) :
  fst (MultiTrial n f) =
  if n <? skipCount f then false else negb (probability f =? 0)%float.
Proof.
  unfold MultiTrial. destruct (n <? skipCount f); cbn; [reflexivity |].
  now rewrite resetSkipCount_probability.
Qed.

(** Away from the boundary [n == skipCount], [MultiTrial(n)] answers as
    the disjunction of [n] calls of [Trial] does. *)
Lemma MultiTrial_agrees_off_boundary (n : nat) (f : FastBernoulli) :
  0 <= skipCount f <= MaxUint32 ->
  Z.of_nat n <> skipCount f ->
  fst (MultiTrial (Z.of_nat n) f) = fst (TrialN n f).
Proof.
  intros Hr Hne. rewrite MultiTrial_result.
  destruct (Z.ltb_spec (Z.of_nat n) (skipCount f)) as [Hlt | Hge].
  - rewrite TrialN_skips by lia. reflexivity.
  - destruct (probability f =? 0)%float eqn:Hp; cbn.
    + now rewrite TrialN_rejects_at_zero.
    + rewrite TrialN_accepts; [reflexivity | exact Hp | exact Hr | lia].
Qed.

(** C4, at the failing inputs.  When [n] equals the skip count and the
    probability is not [0], the [n] calls of [Trial] all return [false]
    (they use the skip count up and derive nothing), while [MultiTrial(n)]
    finds [n < skipCount] false, derives a fresh skip count and returns
    [true]. *)
Theorem MultiTrial_boundary_diverges (n : nat) (f : FastBernoulli) :
  skipCount f = Z.of_nat n ->
  Z.of_nat n <= MaxUint32 ->
  (probability f =? 0)%float = false ->
  fst (TrialN n f) = false /\ fst (MultiTrial (Z.of_nat n) f) = true.
Proof.
  intros Hs Hmax Hp. split.
  - rewrite TrialN_skips by lia. reflexivity.
  - rewrite MultiTrial_result, Hs, Z.ltb_irrefl, Hp. reflexivity.
Qed.

(** ** The skip-count derivation *)

Lemma SFcompare_antisym (x y : spec_float) :
  SFcompare y x = option_map CompOpp (SFcompare x y).
Proof.
  destruct x as [sx | sx | | sx mx ex], y as [sy | sy | | sy my ey];
    try reflexivity;
    try (destruct sx; reflexivity);
    try (destruct sy; reflexivity);
    try (destruct sx, sy; reflexivity).
  unfold SFcompare, option_map. f_equal.
  rewrite (Z.compare_antisym ex ey).
  pose proof (Pos.compare_cont_antisym mx my Eq) as Hm. cbv [CompOpp] in Hm.
  destruct sx, sy; try reflexivity;
    destruct (ex ?= ey); try reflexivity; cbv [CompOpp];
    rewrite <- Hm; now destruct (Pos.compare_cont Eq mx my).
Qed.

Lemma SFltb_swap (x y : spec_float) :
  SFltb x y = true ->
  SFeqb x y = false /\ SFeqb y x = false /\ SFltb y x = false.
Proof.
  unfold SFltb, SFeqb. rewrite (SFcompare_antisym x y).
  destruct (SFcompare x y) as [[| |] |]; try discriminate.
  intros _. repeat split.
Qed.

Lemma strictly_inside (p : float) :
  (0 <? p)%float = true -> (p <? 1)%float = true ->
  (p =? 0)%float = false /\ (p =? 1)%float = false /\
  (p <? 0)%float = false /\ (1 <? p)%float = false.
Proof.
  rewrite !ltb_spec, !eqb_spec. intros H0 H1.
  destruct (SFltb_swap _ _ H0) as (_ & Ha & Hb).
  destruct (SFltb_swap _ _ H1) as (Hc & _ & Hd).
  now repeat split.
Qed.

(** The default case of [resetSkipCount]: one draw, the floored product,
    and the guarded conversion. *)
Lemma resetSkipCount_default (f : FastBernoulli) :
  (probability f =? 0)%float = false ->
  (probability f =? 1)%float = false ->
  let x := draws (r f) (cursor (r f)) in
  let raw := Floor (Log x * invLogNotProbability f) in
  resetSkipCount f =
  mkFastBernoulli (probability f) (invLogNotProbability f)
    (mkRand (draws (r f)) (S (cursor (r f))))
    (if (raw <=? MaxUint32F)%float then uint32OfFloat64 raw
     else MaxUint32).
Proof.
  intros H0 H1. cbn. unfold resetSkipCount. rewrite H0, H1. cbn.
  unfold rawSkipCount.
  now destruct (Floor _ <=? MaxUint32F)%float.
Qed.

(** ** The guard [skipCount <= math.MaxUint32], numerically *)

Lemma digits2_pos_bounds (m : positive) :
  2 ^ (Zpos (digits2_pos m) - 1) <= Zpos m < 2 ^ Zpos (digits2_pos m).
Proof.
  induction m as [m IH | m IH |].
  - cbn [digits2_pos]. rewrite Pos2Z.inj_succ, Z.pow_succ_r by lia.
    replace (Z.succ (Zpos (digits2_pos m)) - 1)
      with (Z.succ (Zpos (digits2_pos m) - 1)) by lia.
    rewrite Z.pow_succ_r by lia. lia.
  - cbn [digits2_pos]. rewrite Pos2Z.inj_succ, Z.pow_succ_r by lia.
    replace (Z.succ (Zpos (digits2_pos m)) - 1)
      with (Z.succ (Zpos (digits2_pos m) - 1)) by lia.
    rewrite Z.pow_succ_r by lia. lia.
  - cbn. lia.
Qed.

(** The mantissa of a [float64] has at most 53 bits, and exactly 53 above
    the subnormal range. *)
Lemma finite_mantissa (x : float) (s : bool) (m : positive) (e : Z) :
  Prim2SF x = S754_finite s m e ->
  Zpos m < 2 ^ 53 /\ (-1074 < e -> 2 ^ 52 <= Zpos m).
Proof.
  intros Hx. pose proof (Prim2SF_valid x) as Hv. rewrite Hx in Hv.
  unfold SpecFloat.valid_binary, bounded, canonical_mantissa, fexp in Hv.
  apply andb_prop in Hv as [Hc _]. apply Z.eqb_eq in Hc.
  unfold SpecFloat.emin, prec, emax in Hc.
  pose proof (digits2_pos_bounds m) as [Hlo Hhi].
  split.
  - apply Z.lt_le_trans with (1 := Hhi).
    apply Z.pow_le_mono_r; lia.
  - intros He. replace (Zpos (digits2_pos m)) with 53 in Hlo by lia.
    exact Hlo.
Qed.

Lemma Prim2SF_MaxUint32F :
  Prim2SF MaxUint32F = S754_finite false maxMantissa (-21).
Proof. reflexivity. Qed.

Lemma maxMantissa_value : Zpos maxMantissa = MaxUint32 * 2 ^ 21.
Proof. reflexivity. Qed.

Lemma magnitude_nonneg (m : positive) (e : Z) : 0 <= magnitude m e.
Proof.
  unfold magnitude. destruct (0 <=? e).
  - apply Z.shiftl_nonneg. lia.
  - apply Z.shiftr_nonneg. lia.
Qed.

(** The comparison of two positive finite values, on exponents and
    mantissas. *)
Lemma SFleb_finite_pos (m M : positive) (e E : Z) :
  SFleb (S754_finite false m e) (S754_finite false M E) =
  (e <? E) || ((e =? E) && (Zpos m <=? Zpos M)).
Proof.
  unfold SFleb, SFcompare. rewrite Pos.compare_cont_spec.
  cbv [Pos.switch_Eq].
  destruct (Z.compare_spec e E) as [He | He | He].
  - subst e. rewrite Z.ltb_irrefl, Z.eqb_refl. cbv [orb andb].
    destruct (Pos.compare_spec m M), (Z.leb_spec (Zpos m) (Zpos M));
      try reflexivity; lia.
  - destruct (Z.ltb_spec e E); [reflexivity | lia].
  - destruct (Z.ltb_spec e E); [lia |].
    destruct (Z.eqb_spec e E); [lia | reflexivity].
Qed.

(** Below the guard, the truncated value fits a [uint32]. *)
Lemma magnitude_below (m : positive) (e : Z) :
  Zpos m < 2 ^ 53 ->
  e < -21 \/ (e = -21 /\ Zpos m <= Zpos maxMantissa) ->
  magnitude m e <= MaxUint32.
Proof.
  intros Hm [He | [He Hle]]; unfold magnitude.
  - destruct (Z.leb_spec 0 e); [lia |].
    rewrite Z.shiftr_div_pow2 by lia.
    assert (Hp : 2 ^ 22 <= 2 ^ (- e)) by (apply Z.pow_le_mono_r; lia).
    apply Z.lt_succ_r. apply Z.div_lt_upper_bound; [lia |].
    replace (2 ^ 53) with (2 ^ 22 * 2147483648) in Hm by reflexivity.
    unfold MaxUint32. nia.
  - subst e. cbn [Z.leb Z.compare Z.opp].
    rewrite Z.shiftr_div_pow2 by lia.
    rewrite maxMantissa_value in Hle.
    apply Z.lt_succ_r. apply Z.div_lt_upper_bound; [lia |].
    unfold MaxUint32 in *. lia.
Qed.

(** Above the guard, the truncated value is at least the largest
    [uint32]. *)
Lemma magnitude_above (m : positive) (e : Z) :
  (-1074 < e -> 2 ^ 52 <= Zpos m) ->
  -21 < e \/ (e = -21 /\ Zpos maxMantissa < Zpos m) ->
  MaxUint32 <= magnitude m e.
Proof.
  intros Hm [He | [He Hlt]]; unfold magnitude.
  - specialize (Hm ltac:(lia)).
    replace (2 ^ 52) with 4503599627370496 in Hm by reflexivity.
    destruct (Z.leb_spec 0 e).
    + rewrite Z.shiftl_mul_pow2 by lia.
      assert (Hp : 1 <= 2 ^ e) by (apply (Z.pow_le_mono_r 2 0 e); lia).
      unfold MaxUint32. nia.
    + rewrite Z.shiftr_div_pow2 by lia.
      assert (Hp : 2 ^ (- e) <= 2 ^ 20) by (apply Z.pow_le_mono_r; lia).
      replace (2 ^ 20) with 1048576 in Hp by reflexivity.
      assert (Hq : 0 < 2 ^ (- e)) by (apply Z.pow_pos_nonneg; lia).
      apply Z.div_le_lower_bound; [lia |].
      unfold MaxUint32. nia.
  - subst e. cbn [Z.leb Z.compare Z.opp].
    rewrite Z.shiftr_div_pow2 by lia.
    rewrite maxMantissa_value in Hlt.
    apply Z.div_le_lower_bound; [lia |].
    unfold MaxUint32 in *. lia.
Qed.


(** A value that passes the guard and is not negative truncates to a
    [uint32]. *)
Lemma guard_sound (raw : float) (z : Z) :
  truncZ raw = Some z -> 0 <= z ->
  (raw <=? MaxUint32F)%float = true -> z <= MaxUint32.
Proof.
  unfold truncZ. rewrite leb_spec, Prim2SF_MaxUint32F.
  destruct (Prim2SF raw) as [s | s | | s m e] eqn:Hraw; try discriminate.
  - intros [= <-] _ _. unfold MaxUint32. lia.
  - intros [= <-] Hz. destruct s.
    + pose proof (magnitude_nonneg m e). unfold cond_Zopp in *.
      unfold MaxUint32. lia.
    + rewrite SFleb_finite_pos. intros Hg. unfold cond_Zopp.
      destruct (finite_mantissa raw false m e Hraw) as [Hm _].
      apply magnitude_below; [exact Hm |].
      destruct (Z.ltb_spec e (-21)); [now left | right].
      destruct (Z.eqb_spec e (-21)); [| discriminate].
      destruct (Z.leb_spec (Zpos m) (Zpos maxMantissa)); [| discriminate].
      now split.
Qed.

(** A value that fails the guard and has an integer part is at least the
    largest [uint32]. *)
Lemma guard_complete (raw : float) (z : Z) :
  truncZ raw = Some z ->
  (raw <=? MaxUint32F)%float = false -> MaxUint32 <= z.
Proof.
  unfold truncZ. rewrite leb_spec, Prim2SF_MaxUint32F.
  destruct (Prim2SF raw) as [s | s | | s m e] eqn:Hraw; try discriminate.
  intros [= <-]. destruct s; [discriminate |].
  rewrite SFleb_finite_pos. intros Hg. unfold cond_Zopp.
  destruct (finite_mantissa raw false m e Hraw) as [_ Hm].
  apply magnitude_above; [exact Hm |].
  destruct (Z.ltb_spec e (-21)); [discriminate |].
  destruct (Z.eqb_spec e (-21)); [right | left; lia].
  destruct (Z.leb_spec (Zpos m) (Zpos maxMantissa)); [discriminate |].
  now split.
Qed.

Lemma uint32OfFloat64_exact (x : float) (z : Z) :
  truncZ x = Some z -> 0 <= z <= MaxUint32 -> uint32OfFloat64 x = z.
Proof.
  intros Hx [Hlo Hhi]. unfold uint32OfFloat64, inUint32Range. rewrite Hx.
  destruct (Z.leb_spec 0 z); [| lia].
  destruct (Z.leb_spec z MaxUint32); [reflexivity | lia].
Qed.

(** The guarded conversion clamps: a value that is not negative becomes
    the smaller of its integer part and the largest [uint32]. *)
Lemma guarded_conversion_clamps (raw : float) (z : Z) :
  truncZ raw = Some z -> 0 <= z ->
  (if (raw <=? MaxUint32F)%float then uint32OfFloat64 raw else MaxUint32) =
  Z.min z MaxUint32.
Proof.
  intros Hraw Hz. destruct (raw <=? MaxUint32F)%float eqn:Hg.
  - pose proof (guard_sound raw z Hraw Hz Hg).
    rewrite (uint32OfFloat64_exact raw z Hraw) by lia. lia.
  - pose proof (guard_complete raw z Hraw Hg). lia.
Qed.

(** NaN and the positive infinity fail the guard. *)
Lemma guard_rejects (raw : float) :
  Prim2SF raw = S754_nan \/ Prim2SF raw = S754_infinity false ->
  (raw <=? MaxUint32F)%float = false.
Proof.
  rewrite leb_spec, Prim2SF_MaxUint32F. now intros [-> | ->].
Qed.

(** C9. With a probability strictly between [0] and [1], a derivation
    draws one value [x] from the random source, computes
    [raw = Floor(Log(x) * invLogNotProbability)], and sets [skipCount] to
    the conversion [uint32(raw)] when [raw <= MaxUint32] and to
    [MaxUint32] otherwise.  On a [raw] that is not negative this clamps:
    the new skip count is the smaller of [raw]'s integer value and
    [MaxUint32]; on NaN and on the positive infinity it is [MaxUint32]. *)
Theorem resetSkipCount_derivation (f : FastBernoulli) :
  (0 <? probability f)%float = true ->
  (probability f <? 1)%float = true ->
  let x := draws (r f) (cursor (r f)) in
  let raw := Floor (Log x * invLogNotProbability f) in
  resetSkipCount f =
    mkFastBernoulli (probability f) (invLogNotProbability f)
      (mkRand (draws (r f)) (S (cursor (r f))))
      (if (raw <=? MaxUint32F)%float then uint32OfFloat64 raw
       else MaxUint32) /\
  (forall z, truncZ raw = Some z -> 0 <= z ->
             skipCount (resetSkipCount f) = Z.min z MaxUint32) /\
  (Prim2SF raw = S754_nan \/ Prim2SF raw = S754_infinity false ->
   skipCount (resetSkipCount f) = MaxUint32).
Proof.
  intros Hlo Hhi x raw.
  destruct (strictly_inside _ Hlo Hhi) as (H0 & H1 & _).
  pose proof (resetSkipCount_default f H0 H1) as Hd. cbv zeta in Hd.
  fold x in Hd. fold raw in Hd. rewrite Hd. cbn [skipCount].
  split; [reflexivity |]. split.
  - intros z Hz Hnn. now apply guarded_conversion_clamps.
  - intros Hs. now rewrite (guard_rejects raw Hs).
Qed.


(** ** The operand of the conversion *)

(** A negative value, or the negative infinity, times the positive
    infinity is the negative infinity. *)
Lemma mul_infinity_negative (y : float) :
  (y <? 0)%float = true -> (y * infinity)%float = neg_infinity.
Proof.
  rewrite ltb_spec, Prim2SF_zero. intros Hy.
  apply Prim2SF_inj. rewrite mul_spec.
  change (Prim2SF infinity) with (S754_infinity false).
  change (Prim2SF neg_infinity) with (S754_infinity true).
  destruct (Prim2SF y) as [s | s | | s m e]; try discriminate;
    destruct s; try discriminate; reflexivity.
Qed.

(** When the cached inverse is the positive infinity and [Log] of the
    draw is negative, the derivation converts the negative infinity. *)
Lemma castOperand_infinite_inverse (f : FastBernoulli) :
  (probability f =? 0)%float = false ->
  (probability f =? 1)%float = false ->
  invLogNotProbability f = infinity ->
  (Log (draws (r f) (cursor (r f))) <? 0)%float = true ->
  castOperand f = Some neg_infinity /\
  skipCount (resetSkipCount f) = wrap32 (unspecifiedUint32 neg_infinity).
Proof.
  intros H0 H1 Hinv Hlog.
  assert (Hraw : rawSkipCount f (draws (r f) (cursor (r f))) = neg_infinity).
  { unfold rawSkipCount. rewrite Hinv, (mul_infinity_negative _ Hlog).
    reflexivity. }
  unfold castOperand, resetSkipCount. rewrite H0, H1.
  cbn [Float64]. rewrite Hraw. split; reflexivity.
Qed.

(** C10, at the failing input.  [2^-60] lies strictly between [0] and
    [1], and [New] accepts it; [1 - 2^-60] rounds to [1], so with
    [Log(1) = 0] the cached inverse is [1 / 0], the positive infinity.
    For a draw whose [Log] is negative the product is the negative
    infinity, which passes the guard [skipCount <= math.MaxUint32]: the
    conversion [uint32(skipCount)] is executed on the negative infinity,
    a value no [uint32] represents, and the skip count is whatever the
    implementation returns. *)
Theorem tiny_probability_converts_infinity (src : Rand) :
  Log 1 = 0%float ->
  (Log (draws src (cursor src)) <? 0)%float = true ->
  let f0 := mkFastBernoulli tinyProbability
              (1 / Log (1 - tinyProbability))%float src 0 in
  (0 <? tinyProbability)%float = true /\
  (tinyProbability <? 1)%float = true /\
  New tinyProbability (Some src) = Ok (resetSkipCount f0) /\
  invLogNotProbability f0 = infinity /\
  castOperand f0 = Some neg_infinity /\
  inUint32Range neg_infinity = false /\
  skipCount (resetSkipCount f0) = wrap32 (unspecifiedUint32 neg_infinity).
Proof.
  intros Hone Hlog f0.
  assert (Hinv : invLogNotProbability f0 = infinity).
  { unfold f0. cbn [invLogNotProbability].
    change (1 - tinyProbability)%float with 1%float. rewrite Hone.
    reflexivity. }
  split; [reflexivity |]. split; [reflexivity |].
  split; [reflexivity |]. split; [exact Hinv |].
  destruct (castOperand_infinite_inverse f0) as [Hop Hsk];
    [reflexivity | reflexivity | exact Hinv | exact Hlog |].
  split; [exact Hop |]. split; [reflexivity | exact Hsk].
Qed.

(** X16. Under the guarantee the source documents for the cached inverse (a
    product that is not negative), the conversion is only executed on a
    value that a [uint32] represents. *)
Lemma castOperand_in_range (f : FastBernoulli) (raw : float) (z : Z) :
  castOperand f = Some raw ->
  truncZ raw = Some z -> 0 <= z ->
  inUint32Range raw = true.
Proof.
  unfold castOperand.
  destruct (probability f =? 0)%float; [discriminate |].
  destruct (probability f =? 1)%float; [discriminate |].
  cbn [Float64].
  destruct (rawSkipCount _ _ <=? MaxUint32F)%float eqn:Hg; [| discriminate].
  intros [= <-] Hz Hnn.
  pose proof (guard_sound _ z Hz Hnn Hg) as Hle.
  unfold inUint32Range. rewrite Hz.
  destruct (Z.leb_spec 0 z); [| lia].
  destruct (Z.leb_spec z MaxUint32); [reflexivity | lia].
Qed.

(** NaN and the positive infinity are never converted: the guard fails
    and the skip count is the largest [uint32]. *)
Lemma castOperand_rejects (f : FastBernoulli) :
  (probability f =? 0)%float = false ->
  (probability f =? 1)%float = false ->
  let raw := rawSkipCount f (draws (r f) (cursor (r f))) in
  Prim2SF raw = S754_nan \/ Prim2SF raw = S754_infinity false ->
  castOperand f = None /\ skipCount (resetSkipCount f) = MaxUint32.
Proof.
  intros H0 H1 raw Hraw. apply guard_rejects in Hraw.
  unfold castOperand, resetSkipCount. rewrite H0, H1. cbn [Float64].
  fold raw. rewrite Hraw. split; reflexivity.
Qed.

(** ** Further properties of the sampler *)

(** *** What the calls leave alone *)

Lemma resetSkipCount_draws (f : FastBernoulli) :
  draws (r (resetSkipCount f)) = draws (r f) /\
  (cursor (r (resetSkipCount f)) = cursor (r f) \/
   cursor (r (resetSkipCount f)) = S (cursor (r f))).
Proof.
  unfold resetSkipCount.
  destruct (probability f =? 0)%float; [split; [reflexivity | now left] |].
  destruct (probability f =? 1)%float; [split; [reflexivity | now left] |].
  cbn [Float64].
  destruct (rawSkipCount _ _ <=? MaxUint32F)%float;
    (split; [reflexivity | now right]).
Qed.

Lemma step_invLog (c : call) (f : FastBernoulli) :
  invLogNotProbability (snd (step c f)) = invLogNotProbability f.
Proof.
  destruct c as [| n]; cbn [step]; [unfold Trial | unfold MultiTrial].
  - destruct (0 <? skipCount f); cbn [snd];
      [reflexivity | apply resetSkipCount_invLog].
  - destruct (n <? skipCount f); cbn [snd];
      [reflexivity | apply resetSkipCount_invLog].
Qed.

Lemma run_invLog (cs : list call) (f : FastBernoulli) :
  invLogNotProbability (run cs f) = invLogNotProbability f.
Proof.
  revert f. induction cs as [| c cs IH]; intros f; cbn [run]; [reflexivity |].
  now rewrite IH, step_invLog.
Qed.

Lemma step_draws (c : call) (f : FastBernoulli) :
  draws (r (snd (step c f))) = draws (r f) /\
  (cursor (r (snd (step c f))) = cursor (r f) \/
   cursor (r (snd (step c f))) = S (cursor (r f))).
Proof.
  destruct c as [| n]; cbn [step]; [unfold Trial | unfold MultiTrial].
  - destruct (0 <? skipCount f); cbn [snd];
      [split; [reflexivity | now left] | apply resetSkipCount_draws].
  - destruct (n <? skipCount f); cbn [snd];
      [split; [reflexivity | now left] | apply resetSkipCount_draws].
Qed.

(** The random source through a sequence of calls: the same script, and a
    cursor advanced by at most one per call. *)
Lemma run_source (cs : list call) (f : FastBernoulli) :
  draws (r (run cs f)) = draws (r f) /\
  (cursor (r f) <= cursor (r (run cs f)) <= cursor (r f) + List.length cs)%nat.
Proof.
  revert f. induction cs as [| c cs IH]; intros f; cbn [run List.length].
  - split; [reflexivity | lia].
  - destruct (IH (snd (step c f))) as [Hd Hc].
    destruct (step_draws c f) as [Hd' [Hc' | Hc']];
      rewrite Hd, Hd'; split; try reflexivity; lia.
Qed.

(** X6. No sequence of calls replaces the random source or rewinds it, and
    a call draws at most one value: after the calls [cs] the source holds
    the same script, and its cursor has advanced by at most the number of
    calls. *)
Theorem run_draws_bounded (cs : list call) (f : FastBernoulli) :
  draws (r (run cs f)) = draws (r f) /\
  (cursor (r f) <= cursor (r (run cs f)) <= cursor (r f) + List.length cs)%nat.
Proof. exact (run_source cs f). Qed.

(** X1. The configuration is fixed at construction: after any sequence of
    calls on a sampler that [New] returned, [Probability()] is the value
    given to [New], the cached inverse is [1 / Log(1 - probability)], and
    the random source still holds the script it was given. *)
Theorem configuration_immutable
        (p : float) (src : option Rand) (f0 : FastBernoulli)
        (cs : list call) :
  New p src = Ok f0 ->
  Probability (run cs f0) = p /\
  invLogNotProbability (run cs f0) = (1 / Log (1 - p))%float /\
  draws (r (run cs f0)) =
    draws match src with None => timeSeeded | Some s => s end.
Proof.
  intros H. unfold New in H.
  destruct ((p <? 0)%float || (1 <? p)%float); [discriminate |].
  injection H as <-. unfold Probability.
  rewrite run_probability, run_invLog, (proj1 (run_source cs _)).
  rewrite resetSkipCount_probability, resetSkipCount_invLog.
  rewrite (proj1 (resetSkipCount_draws _)). repeat split.
Qed.

(** X7. A sampler whose probability is [0] or [1] never touches its random
    source: after any sequence of calls the source is as it was. *)
Theorem edges_never_draw (cs : list call) (f : FastBernoulli) :
  (probability f =? 0)%float = true \/ (probability f =? 1)%float = true ->
  r (run cs f) = r f.
Proof.
  revert f. induction cs as [| c cs IH]; intros f Hp; cbn [run];
    [reflexivity |].
  rewrite IH by now rewrite step_probability.
  assert (Hr : r (resetSkipCount f) = r f).
  { destruct Hp as [Hp | Hp].
    - now rewrite resetSkipCount_zero.
    - now rewrite resetSkipCount_one. }
  destruct c as [| n]; cbn [step]; [unfold Trial | unfold MultiTrial].
  - destruct (0 <? skipCount f); cbn [snd]; [reflexivity | exact Hr].
  - destruct (n <? skipCount f); cbn [snd]; [reflexivity | exact Hr].
Qed.

(** *** Which probabilities [New] accepts *)

Lemma SFcompare_None (x y : spec_float) :
  SFcompare x y = None -> x = S754_nan \/ y = S754_nan.
Proof.
  destruct x as [sx | sx | | sx mx ex], y as [sy | sy | | sy my ey];
    cbv [SFcompare]; intros H; try discriminate H;
    try (now left); now right.
Qed.

Lemma SFcompare_Some (x y : spec_float) (c : comparison) :
  SFcompare x y = Some c -> x <> S754_nan /\ y <> S754_nan.
Proof.
  intros H. split; intros ->; [| destruct x]; discriminate H.
Qed.

(** [x <= y] holds exactly when neither is NaN and [y < x] fails. *)
Lemma SFleb_iff (x y : spec_float) :
  SFleb x y = true <->
  x <> S754_nan /\ y <> S754_nan /\ SFltb y x = false.
Proof.
  unfold SFleb, SFltb. rewrite (SFcompare_antisym x y).
  destruct (SFcompare x y) as [[| |] |] eqn:Hc; cbn [option_map CompOpp].
  - destruct (SFcompare_Some x y _ Hc). now split.
  - destruct (SFcompare_Some x y _ Hc). now split.
  - split; [discriminate |]. intros (_ & _ & H). discriminate H.
  - split; [discriminate |]. intros (Hx & Hy & _).
    destruct (SFcompare_None x y Hc); contradiction.
Qed.

Lemma Prim2SF_nan_inv (p : float) : Prim2SF p = S754_nan <-> p = nan.
Proof.
  split; [| now intros ->].
  intros H. now apply Prim2SF_inj.
Qed.

(** X2. [New] succeeds exactly on NaN and on the probabilities of the
    closed interval from [0] to [1]; everything else is refused. *)
Theorem New_ok_characterised (p : float) (src : option Rand) :
  isOk (New p src) = true <->
  p = nan \/ ((0 <=? p)%float = true /\ (p <=? 1)%float = true).
Proof.
  rewrite New_ok_iff, !leb_spec, !ltb_spec, !SFleb_iff.
  rewrite <- Prim2SF_nan_inv, Prim2SF_zero, Prim2SF_one.
  split.
  - intros [Hlo Hhi].
    destruct (Prim2SF p) as [s | s | | s m e] eqn:Hp;
      try (right; repeat split; (discriminate || assumption)).
    now left.
  - intros [Hn | ((_ & _ & Hlo) & (_ & _ & Hhi))]; [| now split].
    rewrite Hn. split; reflexivity.
Qed.

(** *** [MultiTrial]: the fast path and how calls compose *)

(** [MultiTrial(n)] with [n] below the skip count. *)
Lemma MultiTrial_skips (n : Z) (f : FastBernoulli) :
  0 <= n -> n < skipCount f -> skipCount f <= MaxUint32 ->
  MultiTrial n f =
  (false, mkFastBernoulli (probability f) (invLogNotProbability f) (r f)
                          (skipCount f - n)).
Proof.
  intros Hn Hlt Hmax. unfold MultiTrial.
  destruct (Z.ltb_spec n (skipCount f)) as [_ | Hge]; [| lia].
  rewrite wrap32_id by (unfold isUint32; lia). reflexivity.
Qed.

(** X3. With [n] below the skip count, [MultiTrial(n)] returns [false],
    lowers the skip count by exactly [n] (no wrap-around) and leaves the
    rest of the sampler, its random source included, as it was. *)
Theorem MultiTrial_fast_path (n : Z) (f : FastBernoulli) :
  0 <= n -> n < skipCount f -> skipCount f <= MaxUint32 ->
  MultiTrial n f =
  (false, mkFastBernoulli (probability f) (invLogNotProbability f) (r f)
                          (skipCount f - n)).
Proof. exact (MultiTrial_skips n f). Qed.

(** X10. Batches add up while the skip count lasts: [MultiTrial(a)]
    followed by [MultiTrial(b)] is [MultiTrial(a + b)], in result and in
    state, when [a + b] is below the skip count. *)
Theorem MultiTrial_additive (a b : Z) (f : FastBernoulli) :
  0 <= a -> 0 <= b -> a + b < skipCount f -> skipCount f <= MaxUint32 ->
  MultiTrial b (snd (MultiTrial a f)) = MultiTrial (a + b) f.
Proof.
  intros Ha Hb Hlt Hmax.
  rewrite (MultiTrial_skips a f) by lia. cbn [snd].
  rewrite MultiTrial_skips by (cbn [skipCount]; lia).
  rewrite (MultiTrial_skips (a + b) f) by lia.
  cbn [probability invLogNotProbability r skipCount].
  do 2 f_equal. lia.
Qed.

(** X11. [Trial()] and [MultiTrial(1)] are the same call, in result and in
    state, in every state but [skipCount == 1]; there [Trial()] spends the
    last skip and returns [false], while [MultiTrial(1)] derives a fresh
    skip count and returns [probability != 0]. *)
Theorem Trial_is_MultiTrial_one (f : FastBernoulli) :
  0 <= skipCount f <= MaxUint32 ->
  (skipCount f <> 1 -> Trial f = MultiTrial 1 f) /\
  (skipCount f = 1 ->
   fst (Trial f) = false /\ skipCount (snd (Trial f)) = 0 /\
   MultiTrial 1 f =
     (negb (probability f =? 0)%float, resetSkipCount f)).
Proof.
  intros Hr. unfold Trial, MultiTrial. split.
  - intros Hne.
    destruct (Z.ltb_spec 0 (skipCount f)), (Z.ltb_spec 1 (skipCount f));
      try lia; reflexivity.
  - intros ->. cbn [Z.ltb Z.compare Z.sub Z.opp Z.add Pos.compare
                    Pos.compare_cont fst snd skipCount Z.pos_sub].
    rewrite resetSkipCount_probability. repeat split.
Qed.

(** *** [MultiTrial(n)] and [n] calls of [Trial] *)

(** X4. [MultiTrial(n)] returns the disjunction of the results of [n]
    calls of [Trial()] exactly when [n] differs from the skip count or the
    probability is [0]. *)
Theorem MultiTrial_agreement_iff (n : nat) (f : FastBernoulli) :
  0 <= skipCount f <= MaxUint32 ->
  fst (MultiTrial (Z.of_nat n) f) = fst (TrialN n f) <->
  Z.of_nat n <> skipCount f \/ (probability f =? 0)%float = true.
Proof.
  intros Hr. split.
  - intros Heq. destruct (probability f =? 0)%float eqn:Hp; [now right |].
    left. intros Hn.
    rewrite MultiTrial_result, Hn, Z.ltb_irrefl, Hp in Heq.
    rewrite TrialN_skips in Heq by lia. discriminate Heq.
  - intros [Hne | Hp].
    + now apply MultiTrial_agrees_off_boundary.
    + rewrite MultiTrial_result, Hp, TrialN_rejects_at_zero by exact Hp.
      now destruct (Z.of_nat n <? skipCount f).
Qed.

(** X5. The skip count is the number of rejections before the next
    acceptance: from a skip count [k] and a probability other than [0],
    the next [k] calls of [Trial()] return [false] without drawing, leave
    the skip count at [0], and the call after them returns [true]. *)
Theorem skipCount_counts_rejections (k : nat) (f : FastBernoulli) :
  skipCount f = Z.of_nat k ->
  Z.of_nat k <= MaxUint32 ->
  (probability f =? 0)%float = false ->
  TrialN k f =
    (false, mkFastBernoulli (probability f) (invLogNotProbability f)
                            (r f) 0) /\
  fst (Trial (snd (TrialN k f))) = true.
Proof.
  intros Hs Hmax Hp.
  rewrite TrialN_skips by lia. rewrite Hs, Z.sub_diag.
  split; [reflexivity |]. cbn [snd].
  rewrite Trial_exhausted by reflexivity. cbn [fst probability].
  now rewrite Hp.
Qed.

(** *** Derivations at the edges of the floating-point range *)

Lemma mul_nan_r (y : float) : (y * nan)%float = nan.
Proof.
  apply Prim2SF_inj. rewrite mul_spec.
  change (Prim2SF nan) with S754_nan.
  now destruct (Prim2SF y).
Qed.

Lemma mul_neg_infinity_negative (y : float) :
  (y <? 0)%float = true -> (neg_infinity * y)%float = infinity.
Proof.
  rewrite ltb_spec, Prim2SF_zero. intros Hy.
  apply Prim2SF_inj. rewrite mul_spec.
  change (Prim2SF infinity) with (S754_infinity false).
  change (Prim2SF neg_infinity) with (S754_infinity true).
  destruct (Prim2SF y) as [s | s | | s m e]; try discriminate;
    destruct s; try discriminate; reflexivity.
Qed.

(** X9. When the cached inverse is negative and [Log] of the draw is the
    negative infinity (the draw is [0]), the product is the positive
    infinity: the guard fails, no conversion is executed, and the skip
    count is the largest [uint32]. *)
Theorem zero_draw_stores_sentinel (f : FastBernoulli) :
  (probability f =? 0)%float = false ->
  (probability f =? 1)%float = false ->
  (invLogNotProbability f <? 0)%float = true ->
  Log (draws (r f) (cursor (r f))) = neg_infinity ->
  castOperand f = None /\
  resetSkipCount f =
    mkFastBernoulli (probability f) (invLogNotProbability f)
      (mkRand (draws (r f)) (S (cursor (r f)))) MaxUint32.
Proof.
  intros H0 H1 Hinv Hlog.
  assert (Hraw : rawSkipCount f (draws (r f) (cursor (r f))) = infinity).
  { unfold rawSkipCount.
    rewrite Hlog, (mul_neg_infinity_negative _ Hinv). reflexivity. }
  unfold castOperand, resetSkipCount. rewrite H0, H1.
  cbn [Float64]. rewrite Hraw. split; reflexivity.
Qed.

(** X8. What [New] makes of NaN, given that [Log(NaN)] is NaN: the sampler
    is built with one draw and the largest [uint32] as its skip count; the
    cached inverse is NaN, so every later derivation stores the largest
    [uint32] again; and since NaN differs from [0], [Trial()] returns
    [true] whenever the skip count is [0], and [MultiTrial(n)] whenever [n]
    is not below the skip count. *)
Theorem NaN_sampler (src : Rand) :
  Log nan = nan ->
  exists f0,
    New nan (Some src) = Ok f0 /\
    skipCount f0 = MaxUint32 /\
    cursor (r f0) = S (cursor src) /\
    forall cs : list call,
      let f := run cs f0 in
      skipCount (resetSkipCount f) = MaxUint32 /\
      (skipCount f = 0 -> fst (Trial f) = true) /\
      (forall n, skipCount f <= n -> fst (MultiTrial n f) = true).
Proof.
  intros Hlog.
  assert (Hreset : forall f, probability f = nan ->
            invLogNotProbability f = nan ->
            resetSkipCount f =
            mkFastBernoulli nan nan
              (mkRand (draws (r f)) (S (cursor (r f)))) MaxUint32).
  { intros f Hp Hi. unfold resetSkipCount, rawSkipCount.
    rewrite Hp, Hi. cbn [Float64]. rewrite mul_nan_r. reflexivity. }
  eexists. split; [reflexivity |].
  change (1 - nan)%float with nan. rewrite Hlog.
  change (1 / nan)%float with nan.
  rewrite Hreset by reflexivity. cbn [skipCount r cursor].
  split; [reflexivity |]. split; [reflexivity |]. intros cs. cbv zeta.
  match goal with |- context [run cs ?g] => set (f := run cs g) end.
  assert (Hp : probability f = nan).
  { unfold f. now rewrite run_probability. }
  assert (Hi : invLogNotProbability f = nan).
  { unfold f. now rewrite run_invLog. }
  split; [now rewrite Hreset |]. split.
  - intros H0. rewrite Trial_exhausted, Hp by exact H0. reflexivity.
  - intros n Hn. rewrite MultiTrial_result, Hp.
    destruct (Z.ltb_spec n (skipCount f)); [lia | reflexivity].
Qed.

(** *** The sampling loop of the tests *)

Lemma wrapInt_id (z : Z) :
  -9223372036854775808 <= z <= 9223372036854775807 -> wrapInt z = z.
Proof.
  intros H. unfold wrapInt. rewrite Z.mod_small; lia.
Qed.

Lemma wrap32_add_l (a b : Z) : wrap32 (wrap32 a + b) = wrap32 (a + b).
Proof. unfold wrap32. apply Zplus_mod_idemp_l. Qed.

Lemma TrialN_succ_state (n : nat) (f : FastBernoulli) :
  snd (TrialN (S n) f) = snd (TrialN n (snd (Trial f))).
Proof.
  cbn [TrialN]. destruct (Trial f) as [b f']. cbn [snd].
  now destruct (TrialN n f').
Qed.

Lemma countAccepts_succ (n : nat) (f : FastBernoulli) :
  countAccepts (S n) f =
  (if fst (Trial f) then 1 else 0) + countAccepts n (snd (Trial f)).
Proof.
  cbn [countAccepts]. now destruct (Trial f).
Qed.

Lemma sampleLoop_succ (fuel : nat) (f : FastBernoulli) (events acc : Z) :
  sampleLoop (S fuel) f events acc =
  let acc' := if fst (Trial f) then wrap32 (acc + 1) else acc in
  if wrapInt (events - 1) <? 1 then Some (acc', snd (Trial f))
  else sampleLoop fuel (snd (Trial f)) (wrapInt (events - 1)) acc'.
Proof.
  cbn [sampleLoop]. now destruct (Trial f).
Qed.

Lemma sampleLoop_iterates (n : nat) :
  forall (fuel : nat) (f : FastBernoulli) (events acc : Z),
    isUint32 acc ->
    -9223372036854775808 < events <= 9223372036854775807 ->
    Z.max 1 events = Z.of_nat (S n) ->
    (S n <= fuel)%nat ->
    sampleLoop fuel f events acc =
    Some (wrap32 (acc + countAccepts (S n) f), snd (TrialN (S n) f)).
Proof.
  induction n as [| n IH]; intros fuel f events acc Hacc Hev Hn Hfuel;
    (destruct fuel as [| fuel]; [lia |]);
    rewrite TrialN_succ_state, countAccepts_succ, sampleLoop_succ;
    cbv zeta; rewrite wrapInt_id by lia.
  - destruct (Z.ltb_spec (events - 1) 1) as [_ | Hge]; [| lia].
    cbn [TrialN countAccepts snd]. rewrite Z.add_0_r.
    destruct (fst (Trial f)); [reflexivity |].
    now rewrite Z.add_0_r, wrap32_id.
  - destruct (Z.ltb_spec (events - 1) 1) as [Hlt | _]; [lia |].
    rewrite (IH fuel (snd (Trial f)) (events - 1)); try lia.
    + destruct (fst (Trial f));
        [rewrite wrap32_add_l, Z.add_assoc | rewrite Z.add_0_l];
        reflexivity.
    + destruct (fst (Trial f)); [apply wrap32_range | exact Hacc].
Qed.

(** The loop of the tests, as so many calls of [Trial()]. *)
Lemma testRun_unfolds (fuel : nat) (f : FastBernoulli) (events : Z) :
  -9223372036854775808 < events <= 9223372036854775807 ->
  (Z.to_nat (Z.max 1 events) <= fuel)%nat ->
  testRun fuel f events =
  Some (wrap32 (countAccepts (Z.to_nat (Z.max 1 events)) f),
        snd (TrialN (Z.to_nat (Z.max 1 events)) f)).
Proof.
  intros Hev Hfuel. unfold testRun.
  destruct (Z.to_nat (Z.max 1 events)) as [| n] eqn:Hn; [lia |].
  rewrite (sampleLoop_iterates n fuel f events 0); try lia.
  - reflexivity.
  - unfold isUint32, MaxUint32. lia.
Qed.

(** X12. The closure [run] of the tests ends, and makes as many calls of
    [Trial()] as the larger of [1] and [events] (its body runs before the
    test [events < 1]): given that much fuel it returns the number of
    calls that returned [true], reduced modulo [2^32], with the sampler
    those calls leave. *)
Theorem testRun_iterates (fuel : nat) (f : FastBernoulli) (events : Z) :
  -9223372036854775808 < events <= 9223372036854775807 ->
  (Z.to_nat (Z.max 1 events) <= fuel)%nat ->
  testRun fuel f events =
  Some (wrap32 (countAccepts (Z.to_nat (Z.max 1 events)) f),
        snd (TrialN (Z.to_nat (Z.max 1 events)) f)).
Proof. exact (testRun_unfolds fuel f events). Qed.

Lemma countAccepts_at_zero (n : nat) (f : FastBernoulli) :
  (probability f =? 0)%float = true -> countAccepts n f = 0.
Proof.
  revert f. induction n as [| n IH]; intros f Hp; [reflexivity |].
  rewrite countAccepts_succ.
  pose proof (step_rejects_at_zero CallTrial f Hp) as Hb. cbn [step] in Hb.
  rewrite Hb, IH by now rewrite Trial_probability. reflexivity.
Qed.

(** X13. The [never] case of [TestFastBernoulli_Edge], for every number of
    events: on a sampler of probability [0] the closure [run] returns
    [0]. *)
Theorem testRun_never (fuel : nat) (f : FastBernoulli) (events : Z) :
  (probability f =? 0)%float = true ->
  -9223372036854775808 < events <= 9223372036854775807 ->
  (Z.to_nat (Z.max 1 events) <= fuel)%nat ->
  exists f', testRun fuel f events = Some (0, f').
Proof.
  intros Hp Hev Hfuel. eexists.
  rewrite testRun_unfolds by assumption.
  rewrite countAccepts_at_zero by exact Hp. reflexivity.
Qed.

Lemma Trial_at_one (f : FastBernoulli) :
  (probability f =? 1)%float = true -> skipCount f = 0 ->
  Trial f = (true, f).
Proof.
  intros Hp Hs. rewrite (Trial_exhausted f Hs), (resetSkipCount_one f Hp).
  destruct (one_accepted _ Hp) as (_ & _ & Hz). rewrite Hz, <- Hs.
  now destruct f.
Qed.

Lemma TrialN_at_one (n : nat) (f : FastBernoulli) :
  (probability f =? 1)%float = true -> skipCount f = 0 ->
  countAccepts n f = Z.of_nat n /\ snd (TrialN n f) = f.
Proof.
  intros Hp Hs. induction n as [| n [IHc IHs]]; [now split |].
  rewrite TrialN_succ_state, countAccepts_succ.
  rewrite (Trial_at_one f Hp Hs). cbn [fst snd]. rewrite IHc, IHs.
  split; [lia | reflexivity].
Qed.

(** X14. The [ever] case of [TestFastBernoulli_Edge], for every number of
    events: on a sampler of probability [1] the closure [run] returns the
    larger of [1] and [events], reduced modulo [2^32], and leaves the
    sampler as it was; with [events] below [1] it still counts one
    event. *)
Theorem testRun_always (fuel : nat) (f : FastBernoulli) (events : Z) :
  (probability f =? 1)%float = true ->
  skipCount f = 0 ->
  -9223372036854775808 < events <= 9223372036854775807 ->
  (Z.to_nat (Z.max 1 events) <= fuel)%nat ->
  testRun fuel f events = Some (wrap32 (Z.max 1 events), f).
Proof.
  intros Hp Hs Hev Hfuel.
  rewrite testRun_unfolds by assumption.
  destruct (TrialN_at_one (Z.to_nat (Z.max 1 events)) f Hp Hs) as [Hc Hf].
  rewrite Hc, Hf. do 3 f_equal. lia.
Qed.

(** *** Draws and acceptances *)

(** X15. One draw for each accepted trial, and none for a rejected one:
    with a probability other than [0] and [1], the number of values that
    [n] calls of [Trial()] draw from the random source is the number of
    calls that return [true]. *)
Theorem draws_count_acceptances (n : nat) (f : FastBernoulli) :
  (probability f =? 0)%float = false ->
  (probability f =? 1)%float = false ->
  Z.of_nat (cursor (r (snd (TrialN n f)))) =
  Z.of_nat (cursor (r f)) + countAccepts n f.
Proof.
  revert f. induction n as [| n IH]; intros f H0 H1.
  - cbn [TrialN countAccepts snd]. lia.
  - rewrite TrialN_succ_state, countAccepts_succ.
    rewrite IH by now rewrite Trial_probability.
    unfold Trial. destruct (0 <? skipCount f); cbn [fst snd r].
    + lia.
    + rewrite resetSkipCount_probability, H0.
      rewrite (resetSkipCount_default f H0 H1). cbn [r cursor negb]. lia.
Qed.

End Sampler.

(** ** The theorems on concrete samplers

    [math.Log] is instantiated with [LogSeries], the unspecified conversion
    with [unspecifiedZero], and the random sources are scripted. *)

(** [Trial_fast_path] on [halfSampler]: the skip count goes from 3 to 2. *)
Lemma Trial_fast_path_witness :
  0 < skipCount halfSampler /\ skipCount halfSampler <= MaxUint32 /\
  fst (Trial LogSeries unspecifiedZero halfSampler) = false /\
  skipCount (snd (Trial LogSeries unspecifiedZero halfSampler)) = 2 /\
  r (snd (Trial LogSeries unspecifiedZero halfSampler)) = r halfSampler.
Proof.
  assert (Hpos : 0 < skipCount halfSampler) by reflexivity.
  assert (Hmax : skipCount halfSampler <= MaxUint32) by discriminate.
  destruct (Trial_fast_path LogSeries unspecifiedZero halfSampler Hpos Hmax)
    as (Hb & Hs & Hr & _).
  repeat split; assumption.
Defined.

(** [New_derives_once] at probability [1/2]: one draw, skip count 1. *)
Lemma New_derives_once_witness :
  exists f,
    New LogSeries unspecifiedZero defaultSource 0.5
        (Some (scripted [0.25%float] 0.5%float)) = Ok f /\
    skipCount f = 1 /\ cursor (r f) = 1%nat.
Proof.
  eexists. split; [reflexivity |].
  split; [reflexivity |].
  exact (proj2 (proj2 (proj2 (proj2
    (New_derives_once LogSeries unspecifiedZero defaultSource 0.5
       (Some (scripted [0.25%float] 0.5%float)) _ eq_refl))))).
Defined.

(** [zero_probability_never_accepts] at probability [0], after three
    calls. *)
Lemma zero_probability_never_accepts_witness :
  (0 =? 0)%float = true /\
  exists f0,
    New LogSeries unspecifiedZero defaultSource 0 None = Ok f0 /\
    SkipCount f0 = MaxUint32 /\
    fst (Trial LogSeries unspecifiedZero
           (run LogSeries unspecifiedZero
                [CallTrial; CallMultiTrial 7; CallTrial] f0)) = false.
Proof.
  split; [reflexivity |].
  destruct (zero_probability_never_accepts LogSeries unspecifiedZero
              defaultSource 0 None eq_refl) as (f0 & Hnew & Hs & Hrun).
  exists f0. split; [exact Hnew |]. split; [exact Hs |].
  exact (proj1 (Hrun [CallTrial; CallMultiTrial 7; CallTrial])).
Defined.

(** C3, refuted as stated: one [Trial] on a sampler of probability [0]
    leaves the skip count one below the largest [uint32]. *)
Lemma skipCount_leaves_maximum :
  exists f0,
    New LogSeries unspecifiedZero defaultSource 0 None = Ok f0 /\
    skipCount (run LogSeries unspecifiedZero [CallTrial] f0) = 4294967294 /\
    skipCount (run LogSeries unspecifiedZero [CallTrial] f0) <> MaxUint32.
Proof.
  eexists. split; [reflexivity |]. split; [reflexivity | discriminate].
Qed.

(** [zero_probability_skipCount] at probability [-0], after two calls. *)
Lemma zero_probability_skipCount_witness :
  (-0 =? 0)%float = true /\
  exists f0,
    New LogSeries unspecifiedZero defaultSource (-0) None = Ok f0 /\
    skipCount f0 = MaxUint32 /\
    let f := run LogSeries unspecifiedZero
                 [CallTrial; CallMultiTrial 10] f0 in
    isUint32 (skipCount f) /\
    skipCount (resetSkipCount LogSeries unspecifiedZero f) = MaxUint32.
Proof.
  split; [reflexivity |].
  destruct (zero_probability_skipCount LogSeries unspecifiedZero
              defaultSource (-0) None eq_refl) as (f0 & Hnew & Hs & Hrun).
  exists f0. split; [exact Hnew |]. split; [exact Hs |].
  destruct (Hrun [CallTrial; CallMultiTrial 10]) as (Hr & Hd & _).
  split; [exact Hr | exact Hd].
Defined.

(** [one_probability_always_accepts] at probability [1], after three
    calls. *)
Lemma one_probability_always_accepts_witness :
  (1 =? 1)%float = true /\
  forallb validCall [CallTrial; CallMultiTrial 5; CallMultiTrial 0] = true /\
  exists f0,
    New LogSeries unspecifiedZero defaultSource 1 None = Ok f0 /\
    SkipCount f0 = 0 /\
    let f := run LogSeries unspecifiedZero
                 [CallTrial; CallMultiTrial 5; CallMultiTrial 0] f0 in
    SkipCount f = 0 /\ Trial LogSeries unspecifiedZero f = (true, f).
Proof.
  split; [reflexivity |]. split; [reflexivity |].
  destruct (one_probability_always_accepts LogSeries unspecifiedZero
              defaultSource 1 None eq_refl) as (f0 & Hnew & Hs & Hrun).
  exists f0. split; [exact Hnew |]. split; [exact Hs |].
  exact (Hrun [CallTrial; CallMultiTrial 5; CallMultiTrial 0] eq_refl).
Defined.

(** [MultiTrial_boundary_diverges] on [halfSampler] with [n = 3]. *)
Lemma MultiTrial_boundary_diverges_witness :
  skipCount halfSampler = Z.of_nat 3 /\
  Z.of_nat 3 <= MaxUint32 /\
  (probability halfSampler =? 0)%float = false /\
  fst (TrialN LogSeries unspecifiedZero 3 halfSampler) = false /\
  fst (MultiTrial LogSeries unspecifiedZero (Z.of_nat 3) halfSampler) = true.
Proof.
  assert (Hs : skipCount halfSampler = Z.of_nat 3) by reflexivity.
  assert (Hmax : Z.of_nat 3 <= MaxUint32) by discriminate.
  assert (Hp : (probability halfSampler =? 0)%float = false) by reflexivity.
  split; [exact Hs |]. split; [exact Hmax |]. split; [exact Hp |].
  exact (MultiTrial_boundary_diverges LogSeries unspecifiedZero 3 halfSampler
           Hs Hmax Hp).
Defined.

(** [resetSkipCount_derivation] on [exhaustedSampler]: the draw [1/16]
    gives the skip count 3. *)
Lemma resetSkipCount_derivation_witness :
  (0 <? probability exhaustedSampler)%float = true /\
  (probability exhaustedSampler <? 1)%float = true /\
  resetSkipCount LogSeries unspecifiedZero exhaustedSampler =
    mkFastBernoulli 0.5 (1 / LogSeries 0.5)%float
      (mkRand (draws (r exhaustedSampler)) 1) 3 /\
  truncZ (Floor (LogSeries 0.0625 * (1 / LogSeries 0.5))) = Some 3.
Proof.
  split; [reflexivity |]. split; [reflexivity |].
  split; [| reflexivity].
  exact (proj1 (resetSkipCount_derivation LogSeries unspecifiedZero
                  exhaustedSampler eq_refl eq_refl)).
Defined.

(** [tiny_probability_converts_infinity] with [LogSeries] and the draw
    [3/4]. *)
Lemma tiny_probability_converts_infinity_witness :
  LogSeries 1 = 0%float /\
  (LogSeries (draws defaultSource (cursor defaultSource)) <? 0)%float = true /\
  castOperand LogSeries
    (mkFastBernoulli tinyProbability
       (1 / LogSeries (1 - tinyProbability))%float defaultSource 0) =
  Some neg_infinity.
Proof.
  split; [reflexivity |]. split; [reflexivity |].
  exact (proj1 (proj2 (proj2 (proj2 (proj2
    (tiny_probability_converts_infinity LogSeries unspecifiedZero
       defaultSource defaultSource eq_refl eq_refl)))))).
Defined.

(** ** The further properties on concrete samplers *)

(** [configuration_immutable] at probability [1/2], after three calls. *)
Lemma configuration_immutable_witness :
  exists f0,
    New LogSeries unspecifiedZero defaultSource 0.5 None = Ok f0 /\
    Probability (run LogSeries unspecifiedZero
                     [CallTrial; CallMultiTrial 2; CallTrial] f0) =
    0.5%float.
Proof.
  eexists. split; [reflexivity |].
  exact (proj1 (configuration_immutable LogSeries unspecifiedZero
                  defaultSource 0.5 None _
                  [CallTrial; CallMultiTrial 2; CallTrial] eq_refl)).
Defined.

(** [MultiTrial_fast_path] on [halfSampler] with [n = 2]. *)
Lemma MultiTrial_fast_path_witness :
  0 <= 2 /\ 2 < skipCount halfSampler /\ skipCount halfSampler <= MaxUint32 /\
  MultiTrial LogSeries unspecifiedZero 2 halfSampler =
  (false, mkFastBernoulli (probability halfSampler)
            (invLogNotProbability halfSampler) (r halfSampler)
            (skipCount halfSampler - 2)).
Proof.
  assert (Hn : 0 <= 2) by discriminate.
  assert (Hlt : 2 < skipCount halfSampler) by reflexivity.
  assert (Hmax : skipCount halfSampler <= MaxUint32) by discriminate.
  split; [exact Hn |]. split; [exact Hlt |]. split; [exact Hmax |].
  exact (MultiTrial_fast_path LogSeries unspecifiedZero 2 halfSampler
           Hn Hlt Hmax).
Defined.

(** [MultiTrial_agreement_iff] on [halfSampler] with [n = 5]. *)
Lemma MultiTrial_agreement_iff_witness :
  0 <= skipCount halfSampler <= MaxUint32 /\
  (fst (MultiTrial LogSeries unspecifiedZero (Z.of_nat 5) halfSampler) =
   fst (TrialN LogSeries unspecifiedZero 5 halfSampler) <->
   Z.of_nat 5 <> skipCount halfSampler \/
   (probability halfSampler =? 0)%float = true).
Proof.
  assert (Hr : 0 <= skipCount halfSampler <= MaxUint32)
    by (split; discriminate).
  split; [exact Hr |].
  exact (MultiTrial_agreement_iff LogSeries unspecifiedZero 5 halfSampler Hr).
Defined.

(** [skipCount_counts_rejections] on [halfSampler]: three rejections, then
    an acceptance. *)
Lemma skipCount_counts_rejections_witness :
  skipCount halfSampler = Z.of_nat 3 /\
  Z.of_nat 3 <= MaxUint32 /\
  (probability halfSampler =? 0)%float = false /\
  fst (TrialN LogSeries unspecifiedZero 3 halfSampler) = false /\
  fst (Trial LogSeries unspecifiedZero
         (snd (TrialN LogSeries unspecifiedZero 3 halfSampler))) = true.
Proof.
  assert (Hs : skipCount halfSampler = Z.of_nat 3) by reflexivity.
  assert (Hmax : Z.of_nat 3 <= MaxUint32) by discriminate.
  assert (Hp : (probability halfSampler =? 0)%float = false) by reflexivity.
  split; [exact Hs |]. split; [exact Hmax |]. split; [exact Hp |].
  destruct (skipCount_counts_rejections LogSeries unspecifiedZero 3
              halfSampler Hs Hmax Hp) as [Hrej Hacc].
  split; [now rewrite Hrej | exact Hacc].
Defined.

(** [edges_never_draw] on [everSampler], after two calls. *)
Lemma edges_never_draw_witness :
  ((probability everSampler =? 0)%float = true \/
   (probability everSampler =? 1)%float = true) /\
  r (run LogSeries unspecifiedZero [CallTrial; CallMultiTrial 4]
         everSampler) = r everSampler.
Proof.
  assert (Hp : (probability everSampler =? 0)%float = true \/
               (probability everSampler =? 1)%float = true)
    by (right; reflexivity).
  split; [exact Hp |].
  exact (edges_never_draw LogSeries unspecifiedZero
           [CallTrial; CallMultiTrial 4] everSampler Hp).
Defined.

(** [NaN_sampler] with [LogSeries]. *)
Lemma NaN_sampler_witness :
  LogSeries nan = nan /\
  exists f0,
    New LogSeries unspecifiedZero defaultSource nan (Some defaultSource) =
    Ok f0 /\
    skipCount f0 = MaxUint32 /\
    cursor (r f0) = 1%nat.
Proof.
  split; [reflexivity |].
  destruct (NaN_sampler LogSeries unspecifiedZero defaultSource defaultSource
              eq_refl) as (f0 & Hnew & Hs & Hc & _).
  exists f0. split; [exact Hnew |]. split; [exact Hs | exact Hc].
Defined.

(** [zero_draw_stores_sentinel] on [zeroDrawSampler]. *)
Lemma zero_draw_stores_sentinel_witness :
  (probability zeroDrawSampler =? 0)%float = false /\
  (probability zeroDrawSampler =? 1)%float = false /\
  (invLogNotProbability zeroDrawSampler <? 0)%float = true /\
  LogSeries (draws (r zeroDrawSampler) (cursor (r zeroDrawSampler))) =
    neg_infinity /\
  castOperand LogSeries zeroDrawSampler = None /\
  skipCount (resetSkipCount LogSeries unspecifiedZero zeroDrawSampler) =
    MaxUint32.
Proof.
  do 4 (split; [reflexivity |]).
  destruct (zero_draw_stores_sentinel LogSeries unspecifiedZero
              zeroDrawSampler eq_refl eq_refl eq_refl eq_refl) as [Hc Hr].
  split; [exact Hc | now rewrite Hr].
Defined.

(** [MultiTrial_additive] on [halfSampler] with [a = b = 1]. *)
Lemma MultiTrial_additive_witness :
  0 <= 1 /\ 1 + 1 < skipCount halfSampler /\
  skipCount halfSampler <= MaxUint32 /\
  MultiTrial LogSeries unspecifiedZero 1
    (snd (MultiTrial LogSeries unspecifiedZero 1 halfSampler)) =
  MultiTrial LogSeries unspecifiedZero (1 + 1) halfSampler.
Proof.
  assert (Ha : 0 <= 1) by discriminate.
  assert (Hlt : 1 + 1 < skipCount halfSampler) by reflexivity.
  assert (Hmax : skipCount halfSampler <= MaxUint32) by discriminate.
  split; [exact Ha |]. split; [exact Hlt |]. split; [exact Hmax |].
  exact (MultiTrial_additive LogSeries unspecifiedZero 1 1 halfSampler
           Ha Ha Hlt Hmax).
Defined.

(** [Trial_is_MultiTrial_one] on [halfSampler], whose skip count is 3. *)
Lemma Trial_is_MultiTrial_one_witness :
  0 <= skipCount halfSampler <= MaxUint32 /\
  skipCount halfSampler <> 1 /\
  Trial LogSeries unspecifiedZero halfSampler =
  MultiTrial LogSeries unspecifiedZero 1 halfSampler.
Proof.
  assert (Hr : 0 <= skipCount halfSampler <= MaxUint32)
    by (split; discriminate).
  assert (Hne : skipCount halfSampler <> 1) by discriminate.
  split; [exact Hr |]. split; [exact Hne |].
  exact (proj1 (Trial_is_MultiTrial_one LogSeries unspecifiedZero
                  halfSampler Hr) Hne).
Defined.

(** [testRun_iterates] on [exhaustedSampler] with five events. *)
Lemma testRun_iterates_witness :
  -9223372036854775808 < 5 <= 9223372036854775807 /\
  (Z.to_nat (Z.max 1 5) <= 5)%nat /\
  testRun LogSeries unspecifiedZero 5 exhaustedSampler 5 =
  Some (wrap32 (countAccepts LogSeries unspecifiedZero
                  (Z.to_nat (Z.max 1 5)) exhaustedSampler),
        snd (TrialN LogSeries unspecifiedZero (Z.to_nat (Z.max 1 5))
               exhaustedSampler)).
Proof.
  assert (Hev : -9223372036854775808 < 5 <= 9223372036854775807)
    by (split; [reflexivity | discriminate]).
  assert (Hfuel : (Z.to_nat (Z.max 1 5) <= 5)%nat) by (vm_compute; lia).
  split; [exact Hev |]. split; [exact Hfuel |].
  exact (testRun_iterates LogSeries unspecifiedZero 5 exhaustedSampler 5
           Hev Hfuel).
Defined.

(** [testRun_never] on [neverSampler] with the 10000 events of the test. *)
Lemma testRun_never_witness :
  (probability neverSampler =? 0)%float = true /\
  -9223372036854775808 < 10000 <= 9223372036854775807 /\
  (Z.to_nat (Z.max 1 10000) <= Z.to_nat 10000)%nat /\
  exists f',
    testRun LogSeries unspecifiedZero (Z.to_nat 10000) neverSampler 10000 =
    Some (0, f').
Proof.
  assert (Hp : (probability neverSampler =? 0)%float = true) by reflexivity.
  assert (Hev : -9223372036854775808 < 10000 <= 9223372036854775807)
    by (split; [reflexivity | discriminate]).
  assert (Hfuel : (Z.to_nat (Z.max 1 10000) <= Z.to_nat 10000)%nat) by lia.
  split; [exact Hp |]. split; [exact Hev |]. split; [exact Hfuel |].
  exact (testRun_never LogSeries unspecifiedZero (Z.to_nat 10000)
           neverSampler 10000 Hp Hev Hfuel).
Defined.

(** [testRun_always] on [everSampler] with no event: one is counted. *)
Lemma testRun_always_witness :
  (probability everSampler =? 1)%float = true /\
  skipCount everSampler = 0 /\
  -9223372036854775808 < 0 <= 9223372036854775807 /\
  (Z.to_nat (Z.max 1 0) <= 1)%nat /\
  testRun LogSeries unspecifiedZero 1 everSampler 0 =
  Some (wrap32 (Z.max 1 0), everSampler).
Proof.
  assert (Hp : (probability everSampler =? 1)%float = true) by reflexivity.
  assert (Hs : skipCount everSampler = 0) by reflexivity.
  assert (Hev : -9223372036854775808 < 0 <= 9223372036854775807)
    by (split; [reflexivity | discriminate]).
  assert (Hfuel : (Z.to_nat (Z.max 1 0) <= 1)%nat) by (vm_compute; lia).
  split; [exact Hp |]. split; [exact Hs |]. split; [exact Hev |].
  split; [exact Hfuel |].
  exact (testRun_always LogSeries unspecifiedZero 1 everSampler 0
           Hp Hs Hev Hfuel).
Defined.

(** [draws_count_acceptances] on [exhaustedSampler], over six trials. *)
Lemma draws_count_acceptances_witness :
  (probability exhaustedSampler =? 0)%float = false /\
  (probability exhaustedSampler =? 1)%float = false /\
  Z.of_nat (cursor (r (snd (TrialN LogSeries unspecifiedZero 6
                              exhaustedSampler)))) =
  Z.of_nat (cursor (r exhaustedSampler)) +
  countAccepts LogSeries unspecifiedZero 6 exhaustedSampler.
Proof.
  split; [reflexivity |]. split; [reflexivity |].
  exact (draws_count_acceptances LogSeries unspecifiedZero 6
           exhaustedSampler eq_refl eq_refl).
Defined.

(** [castOperand_in_range] on [exhaustedSampler]: the value converted is
    [3]. *)
Lemma castOperand_in_range_witness :
  castOperand LogSeries exhaustedSampler = Some 3%float /\
  truncZ 3 = Some 3 /\ 0 <= 3 /\
  inUint32Range 3 = true.
Proof.
  assert (Hc : castOperand LogSeries exhaustedSampler = Some 3%float)
    by reflexivity.
  assert (Ht : truncZ 3 = Some 3) by reflexivity.
  assert (Hz : 0 <= 3) by discriminate.
  split; [exact Hc |]. split; [exact Ht |]. split; [exact Hz |].
  exact (castOperand_in_range LogSeries exhaustedSampler 3%float 3
           Hc Ht Hz).
Defined.
